(** * The Autoregressive distribution

    A shallow embedding of
    [tensorflow/contrib/distributions/python/ops/autoregressive.py].

    The class [Autoregressive] is a thin layer over the distribution
    framework: everything it calls (name scopes, the [Distribution] contract,
    tensor shapes, the seed helpers, the user's [distribution_fn]) lives
    outside the file.  Those parts are gathered in the interface [Framework];
    the class itself is translated line by line on top of it. *)

From Stdlib Require Import ZArith List String Bool Lia DecimalString.
Import ListNotations.
Open Scope string_scope.
Open Scope Z_scope.

Set Implicit Arguments.

(** ** Exceptions and the state-and-exception monad *)

(** The only exception the file raises itself. *)
Inductive exn : Type :=
| ValueError (msg : string).

Inductive result (A : Type) : Type :=
| Ok (a : A)
| Raise (e : exn).
Arguments Ok {A} a.
Arguments Raise {A} e.

(** A computation over a mutable state [S] that returns a value or raises. *)
Definition M (S A : Type) : Type := S -> result A * S.

Definition ret {S A} (a : A) : M S A := fun s => (Ok a, s).

Definition bind {S A B} (m : M S A) (k : A -> M S B) : M S B :=
  fun s =>
    match m s with
    | (Ok a, s') => k a s'
    | (Raise e, s') => (Raise e, s')
    end.

Definition raise {S A} (e : exn) : M S A := fun s => (Raise e, s).

(** An outside call: it transforms the state and always hands back a value. *)
Definition call_out {S A} (f : S -> A * S) : M S A :=
  fun s => let (a, s') := f s in (Ok a, s').

Declare Scope py_scope.
Delimit Scope py_scope with py.
Notation "x <- m ;; k" := (bind m (fun x => k))
  (at level 100, m at next level, right associativity) : py_scope.
Open Scope py_scope.

(** [for _ in range(k): acc = body(acc)] *)
Fixpoint for_range {S A} (k : nat) (body : A -> M S A) (acc : A) : M S A :=
  match k with
  | O => ret acc
  | Datatypes.S k' => acc' <- body acc ;; for_range k' body acc'
  end.

(** The number of iterations of [range(z)]: none when [z <= 0]. *)
Definition range (z : Z) : nat := Z.to_nat z.

(** [str(z)] for a Python integer. *)
Definition str (z : Z) : string := NilZero.string_of_int (Z.to_int z).

Definition is_ok {A} (r : result A) : bool :=
  match r with Ok _ => true | Raise _ => false end.

(** ** The framework the class is written against *)

(** How a Python callable of at most one positional argument is invoked:
    [f()] or [f(x)]. *)
Inductive CallArgs (Tensor : Type) : Type :=
| NoArgs
| OneArg (x : Tensor).
Arguments NoArgs {Tensor}.
Arguments OneArg {Tensor} x.

(** The keyword arguments handed to [Distribution.__init__]. *)
Record DistributionArgs (DType Reparam Params Tensor : Type) : Type :=
  { da_dtype : DType;
    da_reparameterization_type : Reparam;
    da_validate_args : bool;
    da_allow_nan_stats : bool;
    da_parameters : Params;
    da_graph_parents : list Tensor;
    da_name : string }.

(** [parameters = dict(locals())] at the entry of [Autoregressive.__init__]:
    the arguments as the caller gave them ([self] left out, as the base
    class's [parameters] property does). *)
Record Parameters (Fn Tensor : Type) : Type :=
  { p_distribution_fn : Fn;
    p_sample0 : option Tensor;
    p_num_steps : option Z;
    p_validate_args : bool;
    p_allow_nan_stats : bool;
    p_name : string }.

(** Everything imported by the file.  [World] is the state outside the
    instance: the graph under construction, the name-scope stack, the state
    of NumPy's global generator.  Attribute reads are functions; method and
    function calls thread the world. *)
Class Framework : Type :=
  { World : Type;
    Tensor : Type;
    TensorShape : Type;
    DType : Type;
    ReparameterizationType : Type;
    (** [Distribution]-like instances, as built by [distribution_fn] *)
    Distribution : Type;
    (** [with ops.name_scope(name) as name:], entering the block: the scoped
        name it binds *)
    name_scope : string -> World -> string * World;
    (** leaving the block, normally or by an exception *)
    name_scope_exit : World -> World;
    (** [TensorShape.num_elements()]: [None] for a shape not fully known *)
    num_elements : TensorShape -> option Z;
    dist_dtype : Distribution -> DType;
    dist_reparameterization_type : Distribution -> ReparameterizationType;
    dist_graph_parents : Distribution -> list Tensor;
    dist_batch_shape : Distribution -> TensorShape;
    dist_event_shape : Distribution -> TensorShape;
    dist_batch_shape_tensor : Distribution -> World -> Tensor * World;
    dist_event_shape_tensor : Distribution -> World -> Tensor * World;
    (** [d.sample(sample_shape, seed=seed)]; [None] as shape is the call
        without a shape, [d.sample(seed=seed)] *)
    dist_sample :
      Distribution -> option Tensor -> option Z -> World -> Tensor * World;
    dist_log_prob : Distribution -> Tensor -> World -> Tensor * World;
    dist_prob : Distribution -> Tensor -> World -> Tensor * World;
    (** [np.random.randint(high)] *)
    randint : Z -> World -> Z * World;
    (** [distribution_util.gen_new_seed(seed, salt)] on an integer seed *)
    gen_new_seed : Z -> string -> Z;
    (** what [Distribution.__init__] does to the world besides recording its
        arguments *)
    Distribution_init :
      DistributionArgs DType ReparameterizationType
        (Parameters (CallArgs Tensor -> World -> Distribution * World) Tensor)
        Tensor ->
      World -> World }.

Section AutoregressiveClass.

Context {F : Framework}.

(** The user's callable: it builds a distribution from nothing or from a
    tensor, possibly adding to the graph. *)
Definition DistributionFn : Type :=
  CallArgs Tensor -> World -> Distribution * World.

Definition BaseArgs : Type :=
  DistributionArgs DType ReparameterizationType
    (Parameters DistributionFn Tensor) Tensor.

(** The attributes of an instance: the four set by
    [Autoregressive.__init__] and what it passed on to the base class. *)
Record Autoregressive : Type :=
  { _distribution_fn : DistributionFn;
    _sample0 : option Tensor;
    _distribution0 : Distribution;
    _num_steps : Z;
    base : BaseArgs }.

(** ** The constructor *)

Definition Ctor (A : Type) : Type := M World A.

(** [with ops.name_scope(name) as name: body]: the scope is left on the way
    out, whether [body] returns or raises. *)
Definition with_name_scope {A} (name : string) (body : string -> Ctor A)
  : Ctor A :=
  fun w =>
    let (scoped, w1) := name_scope name w in
    let (r, w2) := body scoped w1 in
    (r, name_scope_exit w2).

Definition __init__
    (distribution_fn : DistributionFn)
    (sample0 : option Tensor)
    (num_steps : option Z)
    (validate_args : bool)
    (allow_nan_stats : bool)
    (name : string) : Ctor Autoregressive :=
  let parameters :=
    {| p_distribution_fn := distribution_fn;
       p_sample0 := sample0;
       p_num_steps := num_steps;
       p_validate_args := validate_args;
       p_allow_nan_stats := allow_nan_stats;
       p_name := name |} in
  scoped <-
    with_name_scope name (fun name =>
      let _distribution_fn := distribution_fn in
      let _sample0 := sample0 in
      _distribution0 <-
        match sample0 with
        | None => call_out (distribution_fn NoArgs)
        | Some s0 => call_out (distribution_fn (OneArg s0))
        end ;;
      num_steps <-
        match num_steps with
        | None =>
            match num_elements (dist_event_shape _distribution0) with
            | None =>
                raise (ValueError
                  ("distribution_fn must generate a distribution " ++
                   "with fully known `event_shape`."))
            | Some k => ret k
            end
        | Some k => ret k
        end ;;
      if num_steps <? 1 then
        raise (ValueError
          ("num_steps (" ++ str num_steps ++ ") must be at least 1."))
      else
        let _num_steps := num_steps in
        ret (name, _distribution_fn, _sample0, _distribution0, _num_steps)) ;;
  let '(name, _distribution_fn, _sample0, _distribution0, _num_steps) :=
    scoped in
  let super_args :=
    {| da_dtype := dist_dtype _distribution0;
       da_reparameterization_type :=
         dist_reparameterization_type _distribution0;
       da_validate_args := validate_args;
       da_allow_nan_stats := allow_nan_stats;
       da_parameters := parameters;
       da_graph_parents := dist_graph_parents _distribution0;
       da_name := name |} in
  _ <- call_out (fun w => (tt, Distribution_init super_args w)) ;;
  ret {| _distribution_fn := _distribution_fn;
         _sample0 := _sample0;
         _distribution0 := _distribution0;
         _num_steps := _num_steps;
         base := super_args |}.

(** ** Methods *)

(** The calls a method makes into the framework, with their arguments. *)
Inductive Event : Type :=
| EvRandint (high : Z)
| EvApply (a : CallArgs Tensor)
| EvSample (d : Distribution) (sample_shape : option Tensor)
    (seed : option Z)
| EvLogProb (d : Distribution) (value : Tensor)
| EvProb (d : Distribution) (value : Tensor)
| EvBatchShapeTensor (d : Distribution)
| EvEventShapeTensor (d : Distribution).

(** What a method runs against: the attributes of [self], the world, and
    the record of the outside calls made so far (a history, never read by
    the code). *)
Record Heap : Type :=
  { self : Autoregressive;
    world : World;
    history : list Event }.

Definition Method (A : Type) : Type := M Heap A.

(** [self.<attribute>] *)
Definition attr {A} (f : Autoregressive -> A) : Method A :=
  fun h => (Ok (f (self h)), h).

(** A call into the framework: it runs on the world and is recorded. *)
Definition extern {A} (ev : Event) (f : World -> A * World) : Method A :=
  fun h =>
    let (a, w) := f (world h) in
    (Ok a, {| self := self h; world := w; history := history h ++ [ev] |}).

Definition np_random_randint (high : Z) : Method Z :=
  extern (EvRandint high) (randint high).

Definition apply_fn (fn : DistributionFn) (a : CallArgs Tensor)
  : Method Distribution :=
  extern (EvApply a) (fn a).

Definition sample (d : Distribution) (sample_shape : option Tensor)
    (seed : option Z) : Method Tensor :=
  extern (EvSample d sample_shape seed) (dist_sample d sample_shape seed).

Definition log_prob (d : Distribution) (value : Tensor) : Method Tensor :=
  extern (EvLogProb d value) (dist_log_prob d value).

Definition prob (d : Distribution) (value : Tensor) : Method Tensor :=
  extern (EvProb d value) (dist_prob d value).

Definition batch_shape_tensor (d : Distribution) : Method Tensor :=
  extern (EvBatchShapeTensor d) (dist_batch_shape_tensor d).

Definition event_shape_tensor (d : Distribution) : Method Tensor :=
  extern (EvEventShapeTensor d) (dist_event_shape_tensor d).

(** The four properties. *)
Definition distribution_fn : Method DistributionFn := attr _distribution_fn.
Definition sample0 : Method (option Tensor) := attr _sample0.
Definition num_steps : Method Z := attr _num_steps.
Definition distribution0 : Method Distribution := attr _distribution0.

Definition _batch_shape : Method TensorShape :=
  d0 <- distribution0 ;;
  ret (dist_batch_shape d0).

Definition _batch_shape_tensor : Method Tensor :=
  d0 <- distribution0 ;;
  batch_shape_tensor d0.

Definition _event_shape : Method TensorShape :=
  d0 <- distribution0 ;;
  ret (dist_event_shape d0).

Definition _event_shape_tensor : Method Tensor :=
  d0 <- distribution0 ;;
  event_shape_tensor d0.

Definition _sample_n (n : Tensor) (seed : option Z) : Method Tensor :=
  seed <-
    match seed with
    | None =>
        r <- np_random_randint (2 ^ 32 - 1) ;;
        ret (gen_new_seed r "autoregressive")
    | Some s => ret s
    end ;;
  d0 <- distribution0 ;;
  samples <- sample d0 (Some n) (Some seed) ;;
  k <- attr _num_steps ;;
  for_range (range k)
    (fun samples =>
       fn <- distribution_fn ;;
       d <- apply_fn fn (OneArg samples) ;;
       sample d None (Some seed))
    samples.

Definition _log_prob (value : Tensor) : Method Tensor :=
  fn <- distribution_fn ;;
  d <- apply_fn fn (OneArg value) ;;
  log_prob d value.

Definition _prob (value : Tensor) : Method Tensor :=
  fn <- distribution_fn ;;
  d <- apply_fn fn (OneArg value) ;;
  prob d value.

(** Modelled from the spec: the [dtype] property belongs to the base class
    [Distribution], which is not in this file; the contract lists [dtype]
    among what a distribution exposes, and the base class hands back the
    [dtype] its constructor was given. *)
Definition dtype : Method DType := attr (fun o => da_dtype (base o)).

(** ** The operations of an instance, as one type *)

Inductive Op : Type :=
| Get_distribution_fn
| Get_sample0
| Get_num_steps
| Get_distribution0
| Get_dtype
| Call_batch_shape
| Call_batch_shape_tensor
| Call_event_shape
| Call_event_shape_tensor
| Call_sample_n (n : Tensor) (seed : option Z)
| Call_log_prob (value : Tensor)
| Call_prob (value : Tensor).

Inductive Value : Type :=
| VFn (fn : DistributionFn)
| VOptTensor (t : option Tensor)
| VInt (z : Z)
| VDistribution (d : Distribution)
| VDType (t : DType)
| VShape (s : TensorShape)
| VTensor (t : Tensor).

Definition fmap {S A B} (f : A -> B) (m : M S A) : M S B :=
  a <- m ;; ret (f a).

Definition exec (o : Op) : Method Value :=
  match o with
  | Get_distribution_fn => fmap VFn distribution_fn
  | Get_sample0 => fmap VOptTensor sample0
  | Get_num_steps => fmap VInt num_steps
  | Get_distribution0 => fmap VDistribution distribution0
  | Get_dtype => fmap VDType dtype
  | Call_batch_shape => fmap VShape _batch_shape
  | Call_batch_shape_tensor => fmap VTensor _batch_shape_tensor
  | Call_event_shape => fmap VShape _event_shape
  | Call_event_shape_tensor => fmap VTensor _event_shape_tensor
  | Call_sample_n n seed => fmap VTensor (_sample_n n seed)
  | Call_log_prob value => fmap VTensor (_log_prob value)
  | Call_prob value => fmap VTensor (_prob value)
  end.

(** A client program: operations one after the other, stopping at the first
    that raises. *)
Fixpoint exec_all (ops : list Op) : Method (list Value) :=
  match ops with
  | [] => ret []
  | o :: ops' =>
      v <- exec o ;;
      vs <- exec_all ops' ;;
      ret (v :: vs)
  end.

(** ** Vocabulary for the statements *)

(** How [__init__] calls [distribution_fn] for a given [sample0]. *)
Definition base_call_args (sample0 : option Tensor) : CallArgs Tensor :=
  match sample0 with
  | None => NoArgs
  | Some s0 => OneArg s0
  end.

(** The base distribution and the world it leaves, inside the name scope. *)
Definition base_call (fn : DistributionFn) (sample0 : option Tensor)
    (name : string) (w : World) : Distribution * World :=
  fn (base_call_args sample0) (snd (name_scope name w)).

(** The step count after defaulting, if there is one. *)
Definition step_count (num_steps : option Z) (d0 : Distribution) : option Z :=
  match num_steps with
  | Some k => Some k
  | None => num_elements (dist_event_shape d0)
  end.

Definition shape_message : string :=
  "distribution_fn must generate a distribution with fully known `event_shape`.".

Definition steps_message (k : Z) : string :=
  "num_steps (" ++ str k ++ ") must be at least 1.".

(** The seed every draw of [_sample_n] is given. *)
Definition resolve_seed (seed : option Z) (w : World) : Z * World :=
  match seed with
  | Some s => (s, w)
  | None =>
      let (r, w') := randint (2 ^ 32 - 1) w in
      (gen_new_seed r "autoregressive", w')
  end.

(** "Exactly [k] times, the current samples are replaced by a sample of
    [distribution_fn] applied to them", as a relation between the samples
    (and world) before and after. *)
Inductive resampled (fn : DistributionFn) (seed : Z)
  : nat -> Tensor * World -> Tensor * World -> Prop :=
| resampled_none : forall sw, resampled fn seed 0 sw sw
| resampled_once_more :
    forall k samples w d w1 samples' w2 out,
      fn (OneArg samples) w = (d, w1) ->
      dist_sample d None (Some seed) w1 = (samples', w2) ->
      resampled fn seed k (samples', w2) out ->
      resampled fn seed (Datatypes.S k) (samples, w) out.

(** The seeds handed to [sample], in call order. *)
Fixpoint sample_seeds (evs : list Event) : list (option Z) :=
  match evs with
  | [] => []
  | EvSample _ _ seed :: evs' => seed :: sample_seeds evs'
  | _ :: evs' => sample_seeds evs'
  end.

(** The number of calls of [distribution_fn]. *)
Fixpoint applications (evs : list Event) : nat :=
  match evs with
  | [] => O
  | EvApply _ :: evs' => Datatypes.S (applications evs')
  | _ :: evs' => applications evs'
  end.

(** The number of draws from NumPy's generator. *)
Fixpoint randint_calls (evs : list Event) : nat :=
  match evs with
  | [] => O
  | EvRandint _ :: evs' => Datatypes.S (randint_calls evs')
  | _ :: evs' => randint_calls evs'
  end.

(** A computation that leaves the attributes of [self] alone and returns. *)
Definition read_only {A} (m : Method A) : Prop :=
  forall h, exists a, fst (m h) = Ok a /\ self (snd (m h)) = self h.

End AutoregressiveClass.

(** ** Vocabulary for client programs *)

Section Clients.

Context {F : Framework}.

(** The sample shapes handed to [sample], in call order; [None] is a call
    without a shape. *)
Fixpoint sample_shapes (evs : list Event) : list (option Tensor) :=
  match evs with
  | [] => []
  | EvSample _ shape _ :: evs' => shape :: sample_shapes evs'
  | _ :: evs' => sample_shapes evs'
  end.

(** The calls of the loop of [_sample_n] run [k] times: an application of
    [distribution_fn], then a draw without a shape, each time. *)
Inductive step_events (seed : Z) : nat -> list Event -> Prop :=
| step_events_none : step_events seed 0 []
| step_events_more :
    forall k samples d evs,
      step_events seed k evs ->
      step_events seed (Datatypes.S k)
        (EvApply (OneArg samples) :: EvSample d None (Some seed) :: evs).

(** The instance with its [_num_steps] attribute overwritten. *)
Definition with_steps (inst : Autoregressive) (k : Z) : Autoregressive :=
  {| _distribution_fn := _distribution_fn inst;
     _sample0 := _sample0 inst;
     _distribution0 := _distribution0 inst;
     _num_steps := k;
     base := base inst |}.

Definition on_instance (inst : Autoregressive) (h : Heap) : Heap :=
  {| self := inst; world := world h; history := history h |}.

(** How often an operation applies [distribution_fn]. *)
Definition fn_calls (inst : Autoregressive) (o : Op) : nat :=
  match o with
  | Call_sample_n _ _ => range (_num_steps inst)
  | Call_log_prob _ => 1
  | Call_prob _ => 1
  | _ => 0
  end.

(** How often an operation draws from NumPy's generator. *)
Definition generator_draws (o : Op) : nat :=
  match o with
  | Call_sample_n _ None => 1
  | _ => 0
  end.

End Clients.

(** ** A small framework to run the class on

    Tensors are integers, a distribution is a location with an event shape,
    and the world counts the calls made so far (the count also serves as the
    state of the generator: a draw without a seed depends on it). *)

Module Toy.

Record dist : Type :=
  { loc : Z;
    event : list (option Z) }.

(** The number of elements of a shape: the product of its dimensions when
    all are known. *)
Fixpoint count (dims : list (option Z)) : option Z :=
  match dims with
  | [] => Some 1
  | Some d :: dims' => option_map (Z.mul d) (count dims')
  | None :: _ => None
  end.

Definition or_zero (o : option Z) : Z :=
  match o with Some z => z | None => 0 end.

#[global] Instance framework : Framework :=
  {| World := Z;
     Tensor := Z;
     TensorShape := list (option Z);
     DType := string;
     ReparameterizationType := bool;
     Distribution := dist;
     name_scope := fun name w => (name ++ "/", w + 1);
     name_scope_exit := fun w => w + 1;
     num_elements := count;
     dist_dtype := fun _ => "float32";
     dist_reparameterization_type := fun _ => true;
     dist_graph_parents := fun d => [loc d];
     dist_batch_shape := fun _ => [];
     dist_event_shape := event;
     dist_batch_shape_tensor := fun _ w => (0, w + 1);
     dist_event_shape_tensor :=
       fun d w => (Z.of_nat (List.length (event d)), w + 1);
     dist_sample :=
       fun d shape seed w =>
         (loc d + or_zero shape +
          match seed with Some s => s | None => w end,
          w + 1);
     dist_log_prob := fun d v w => (- ((v - loc d) * (v - loc d)), w + 1);
     dist_prob := fun d v w => (if v =? loc d then 1 else 0, w + 1);
     randint := fun high w => (w mod high, w + 1);
     gen_new_seed := fun z salt => z + Z.of_nat (String.length salt);
     Distribution_init := fun _ w => w + 1 |}.

(** [distribution_fn]s: a location one above the tensor given, over an event
    of the given shape. *)
Definition shift_over (shape : list (option Z)) : DistributionFn :=
  fun a w =>
    match a with
    | NoArgs => ({| loc := 0; event := shape |}, w + 1)
    | OneArg x => ({| loc := x + 1; event := shape |}, w + 1)
    end.

Definition shift : DistributionFn := shift_over [Some 2; Some 1].

(** The instance [Autoregressive(shift, sample0=5)], built in world [0]. *)
Definition ar : Autoregressive :=
  {| _distribution_fn := shift;
     _sample0 := Some 5;
     _distribution0 := {| loc := 6; event := [Some 2; Some 1] |};
     _num_steps := 2;
     base :=
       {| da_dtype := "float32";
          da_reparameterization_type := true;
          da_validate_args := false;
          da_allow_nan_stats := true;
          da_parameters :=
            {| p_distribution_fn := shift;
               p_sample0 := Some 5;
               p_num_steps := None;
               p_validate_args := false;
               p_allow_nan_stats := true;
               p_name := "Autoregressive" |};
          da_graph_parents := [6];
          da_name := "Autoregressive/" |} |}.

Definition heap (w : Z) : Heap :=
  {| self := ar; world := w; history := [] |}.

(** Two client programs. *)
Definition sample_then_prob : list Op :=
  [Call_sample_n (F := framework) 1 None; Get_num_steps; Call_prob 3].

Definition sample_then_log_prob : list Op :=
  [Call_sample_n (F := framework) 1 (Some 10); Call_log_prob 2].

(** [ar] with more steps, and with its step count overwritten by [0]. *)
Definition ar_long : Autoregressive := with_steps ar 5.
Definition ar_idle : Autoregressive := with_steps ar 0.

(** [ar] with another [sample0] on record. *)
Definition ar_relabelled : Autoregressive :=
  {| _distribution_fn := _distribution_fn ar;
     _sample0 := None;
     _distribution0 := _distribution0 ar;
     _num_steps := _num_steps ar;
     base := base ar |}.

End Toy.

Section Properties.

Context {F : Framework}.

(** ** The constructor, case by case *)

Lemma init_cases fn s0 ns va ans name w :
  __init__ fn s0 ns va ans name w =
    let scoped := fst (name_scope name w) in
    let d0 := fst (base_call fn s0 name w) in
    let w3 := name_scope_exit (snd (base_call fn s0 name w)) in
    match step_count ns d0 with
    | None => (Raise (ValueError shape_message), w3)
    | Some k =>
        if k <? 1 then (Raise (ValueError (steps_message k)), w3)
        else
          let super_args :=
            {| da_dtype := dist_dtype d0;
               da_reparameterization_type := dist_reparameterization_type d0;
               da_validate_args := va;
               da_allow_nan_stats := ans;
               da_parameters :=
                 {| p_distribution_fn := fn;
                    p_sample0 := s0;
                    p_num_steps := ns;
                    p_validate_args := va;
                    p_allow_nan_stats := ans;
                    p_name := name |};
               da_graph_parents := dist_graph_parents d0;
               da_name := scoped |} in
          (Ok {| _distribution_fn := fn;
                 _sample0 := s0;
                 _distribution0 := d0;
                 _num_steps := k;
                 base := super_args |},
           Distribution_init super_args w3)
    end.
Proof.
  unfold __init__, base_call, base_call_args, step_count, bind,
    with_name_scope, call_out, raise, ret.
  destruct (name_scope name w) as [scoped w1]; cbn [fst snd].
  destruct s0 as [x|]; destruct ns as [k|];
    match goal with
    | |- context [fn ?a w1] => destruct (fn a w1) as [d0 w2]
    end; cbn [fst snd];
    try destruct (num_elements (dist_event_shape d0)) as [k|];
    try reflexivity;
    destruct (k <? 1); reflexivity.
Qed.

Lemma step_count_none ns d0 :
  step_count ns d0 = None <->
  ns = None /\ num_elements (dist_event_shape d0) = None.
Proof.
  unfold step_count; destruct ns as [k|]; split.
  - discriminate.
  - intros [Hns _]; discriminate.
  - auto.
  - intros [_ Hshape]; exact Hshape.
Qed.

(** The instance comes out exactly when a step count of at least one is
    there, and it holds what the constructor was given. *)
Lemma init_ok_inv fn s0 ns va ans name w inst w' :
  __init__ fn s0 ns va ans name w = (Ok inst, w') ->
  exists k,
    step_count ns (fst (base_call fn s0 name w)) = Some k /\
    1 <= k /\
    _distribution_fn inst = fn /\
    _sample0 inst = s0 /\
    _distribution0 inst = fst (base_call fn s0 name w) /\
    _num_steps inst = k /\
    da_dtype (base inst) = dist_dtype (fst (base_call fn s0 name w)).
Proof.
  rewrite init_cases; cbv zeta.
  destruct (step_count ns (fst (base_call fn s0 name w))) as [k|];
    [|discriminate].
  destruct (k <? 1) eqn:Hk; [discriminate|].
  intros H; injection H as <- <-.
  exists k; cbn.
  apply Z.ltb_ge in Hk.
  repeat split; auto.
Qed.

(** C3: the constructor raises in two cases and no other.  With no
    [num_steps] and a base distribution whose event shape has no known number
    of elements it raises the [ValueError] about the shape; with a step
    count (given, or taken from the shape) below one it raises the
    [ValueError] about the steps; on every other input it returns an
    instance.  When it raises, it does so before the base class is
    initialised. *)
Theorem init_raises_exactly_two fn s0 ns va ans name w :
  let d0 := fst (base_call fn s0 name w) in
  let r := __init__ fn s0 ns va ans name w in
  let no_shape := ns = None /\ num_elements (dist_event_shape d0) = None in
  let too_few := fun k => step_count ns d0 = Some k /\ k < 1 in
  (no_shape -> fst r = Raise (ValueError shape_message)) /\
  (forall k, too_few k -> fst r = Raise (ValueError (steps_message k))) /\
  (is_ok (fst r) = false <-> no_shape \/ exists k, too_few k) /\
  (is_ok (fst r) = false ->
   snd r = name_scope_exit (snd (base_call fn s0 name w))).
Proof.
  cbv zeta. rewrite init_cases; cbv zeta.
  pose proof (step_count_none ns (fst (base_call fn s0 name w))) as Hnone.
  destruct (step_count ns (fst (base_call fn s0 name w))) as [k|] eqn:Hsc.
  - destruct (k <? 1) eqn:Hk; cbn [fst snd is_ok].
    + apply Z.ltb_lt in Hk. repeat split.
      * intros Hns. apply Hnone in Hns. discriminate.
      * intros k' [Hk' _]. injection Hk' as <-. reflexivity.
      * intros _. right. exists k. auto.
    + apply Z.ltb_ge in Hk. repeat split.
      * intros Hns. apply Hnone in Hns. discriminate.
      * intros k' [Hk' Hlt]. injection Hk' as <-. lia.
      * discriminate.
      * intros [Hns | [k' [Hk' Hlt]]].
        -- apply Hnone in Hns. discriminate.
        -- injection Hk' as <-. lia.
      * discriminate.
  - cbn [fst snd is_ok]. repeat split.
    + intros k' [Hk' _]. discriminate.
    + intros _. left. apply Hnone. reflexivity.
Qed.

(** C4: with a step count [s] given by the caller, the constructor returns
    an instance exactly when [1 <= s], whatever the other arguments; a
    smaller [s] is turned down with the [ValueError] naming it. *)
Theorem init_explicit_steps fn s0 s va ans name w :
  (is_ok (fst (__init__ fn s0 (Some s) va ans name w)) = true <-> 1 <= s) /\
  (s < 1 ->
   fst (__init__ fn s0 (Some s) va ans name w) =
     Raise (ValueError (steps_message s))).
Proof.
  rewrite init_cases; cbv zeta. cbn [step_count].
  destruct (s <? 1) eqn:Hs; cbn [fst is_ok].
  - apply Z.ltb_lt in Hs. split; [split|]; try discriminate; try lia.
    reflexivity.
  - apply Z.ltb_ge in Hs. split; [split|]; auto; lia.
Qed.

(** C5: [sample0] may be left out.  With a [sample0] the constructor
    builds the base distribution by [distribution_fn(sample0)], without one by
    [distribution_fn()]; either call is made once, just inside the name scope.
    Whichever it is, an instance comes out exactly when the step count
    allows it, its base distribution is the one that call built, and the
    world has gone through that call, also when the constructor raises. *)
Theorem init_base_distribution fn ns va ans name w :
  let entered := snd (name_scope name w) in
  let built_by := fun (s0 : option Tensor) (built : Distribution * World) =>
    let r := __init__ fn s0 ns va ans name w in
    (is_ok (fst r) = true <->
     exists k, step_count ns (fst built) = Some k /\ 1 <= k) /\
    match fst r with
    | Ok inst =>
        _distribution0 inst = fst built /\
        _sample0 inst = s0 /\
        snd r = Distribution_init (base inst) (name_scope_exit (snd built))
    | Raise _ => snd r = name_scope_exit (snd built)
    end in
  (forall x, built_by (Some x) (fn (OneArg x) entered)) /\
  built_by None (fn NoArgs entered).
Proof.
  cbv zeta.
  assert (Hboth : forall s0,
    let r := __init__ fn s0 ns va ans name w in
    let built := fn (base_call_args s0) (snd (name_scope name w)) in
    (is_ok (fst r) = true <->
     exists k, step_count ns (fst built) = Some k /\ 1 <= k) /\
    match fst r with
    | Ok inst =>
        _distribution0 inst = fst built /\
        _sample0 inst = s0 /\
        snd r = Distribution_init (base inst) (name_scope_exit (snd built))
    | Raise _ => snd r = name_scope_exit (snd built)
    end).
  { intros s0. cbv zeta. rewrite init_cases; cbv zeta. unfold base_call.
    destruct (step_count ns
                (fst (fn (base_call_args s0) (snd (name_scope name w)))))
      as [k|]; cbn [fst snd is_ok].
    - destruct (k <? 1) eqn:Hk; cbn [fst snd is_ok].
      + apply Z.ltb_lt in Hk. split; [|reflexivity].
        split; [discriminate|].
        intros (k' & Hk' & Hle). injection Hk' as <-. lia.
      + apply Z.ltb_ge in Hk. split.
        * split; [|reflexivity]. intros _. exists k. split; [reflexivity|].
          exact Hk.
        * cbn. repeat split.
    - split; [|reflexivity]. split; [discriminate|].
      intros (k' & Hk' & _). discriminate. }
  split.
  - intros x. exact (Hboth (Some x)).
  - exact (Hboth None).
Qed.

(** C8: with no [num_steps] and a base distribution whose event shape has
    [k] elements, the constructor goes on as if [k] had been given: for
    [1 <= k] the instance has [k] steps, and a [k] below one is turned down
    like a given one. *)
Theorem init_default_steps fn s0 va ans name w k :
  num_elements (dist_event_shape (fst (base_call fn s0 name w))) = Some k ->
  (1 <= k ->
   exists inst,
     fst (__init__ fn s0 None va ans name w) = Ok inst /\
     _num_steps inst = k) /\
  (k < 1 ->
   fst (__init__ fn s0 None va ans name w) =
     Raise (ValueError (steps_message k))) /\
  fst (__init__ fn s0 None va ans name w) =
    match fst (__init__ fn s0 (Some k) va ans name w) with
    | Ok inst =>
        Ok {| _distribution_fn := _distribution_fn inst;
              _sample0 := _sample0 inst;
              _distribution0 := _distribution0 inst;
              _num_steps := _num_steps inst;
              base :=
                {| da_dtype := da_dtype (base inst);
                   da_reparameterization_type :=
                     da_reparameterization_type (base inst);
                   da_validate_args := da_validate_args (base inst);
                   da_allow_nan_stats := da_allow_nan_stats (base inst);
                   da_parameters :=
                     {| p_distribution_fn := fn;
                        p_sample0 := s0;
                        p_num_steps := None;
                        p_validate_args := va;
                        p_allow_nan_stats := ans;
                        p_name := name |};
                   da_graph_parents := da_graph_parents (base inst);
                   da_name := da_name (base inst) |} |}
    | Raise e => Raise e
    end.
Proof.
  intros Hshape.
  rewrite !init_cases; cbv zeta. cbn [step_count]. rewrite Hshape.
  destruct (k <? 1) eqn:Hk; cbn [fst].
  - apply Z.ltb_lt in Hk. repeat split; try reflexivity. lia.
  - apply Z.ltb_ge in Hk. repeat split; try reflexivity.
    + intros _. eexists. split; reflexivity.
    + lia.
Qed.

(** ** Methods leave [self] alone *)

Lemma read_only_ret A (a : A) : read_only (ret a).
Proof. intros h. exists a. split; reflexivity. Qed.

Lemma read_only_attr A (f : Autoregressive -> A) : read_only (attr f).
Proof. intros h. exists (f (self h)). split; reflexivity. Qed.

Lemma read_only_extern A ev (f : World -> A * World) :
  read_only (extern ev f).
Proof.
  intros h. unfold extern.
  destruct (f (world h)) as [a w]. exists a. split; reflexivity.
Qed.

Lemma read_only_bind A B (m : Method A) (k : A -> Method B) :
  read_only m -> (forall a, read_only (k a)) -> read_only (bind m k).
Proof.
  intros Hm Hk h. unfold bind.
  destruct (Hm h) as (a & Ha & Hself).
  destruct (m h) as [r h1]; cbn [fst snd] in *; subst r.
  destruct (Hk a h1) as (b & Hb & Hself').
  exists b. split; [exact Hb | congruence].
Qed.

Lemma read_only_for_range A (body : A -> Method A) k :
  (forall a, read_only (body a)) ->
  forall acc, read_only (for_range k body acc).
Proof.
  intros Hbody. induction k as [|k IH]; intros acc; cbn [for_range].
  - apply read_only_ret.
  - apply read_only_bind; [apply Hbody | exact IH].
Qed.

Lemma read_only_fmap A B (f : A -> B) (m : Method A) :
  read_only m -> read_only (fmap f m).
Proof.
  intros Hm. unfold fmap.
  apply read_only_bind; [exact Hm | intros a; apply read_only_ret].
Qed.

(** Decomposes a method along its binds, loops and branches. *)
Ltac frame :=
  repeat first
    [ apply read_only_fmap
    | apply read_only_bind; [|intros ?]
    | apply read_only_for_range; intros ?
    | apply read_only_ret
    | apply read_only_attr
    | apply read_only_extern
    | match goal with |- read_only (match ?x with _ => _ end) =>
        destruct x end ].

Lemma sample_n_read_only n seed : read_only (_sample_n n seed).
Proof.
  unfold _sample_n, np_random_randint, distribution0, distribution_fn,
    apply_fn, sample.
  frame.
Qed.

Lemma log_prob_read_only value : read_only (_log_prob value).
Proof. unfold _log_prob, distribution_fn, apply_fn, log_prob. frame. Qed.

Lemma prob_read_only value : read_only (_prob value).
Proof. unfold _prob, distribution_fn, apply_fn, prob. frame. Qed.

Lemma exec_read_only o : read_only (exec o).
Proof.
  destruct o; cbn [exec]; apply read_only_fmap;
    auto using sample_n_read_only, log_prob_read_only, prob_read_only;
    unfold distribution_fn, sample0, num_steps, distribution0, dtype,
      _batch_shape, _batch_shape_tensor, _event_shape, _event_shape_tensor,
      batch_shape_tensor, event_shape_tensor, distribution0;
    frame.
Qed.

Lemma exec_all_read_only ops : read_only (exec_all ops).
Proof.
  induction ops as [|o ops IH]; cbn [exec_all].
  - apply read_only_ret.
  - apply read_only_bind; [apply exec_read_only|]. intros v.
    apply read_only_bind; [exact IH|]. intros vs. apply read_only_ret.
Qed.

Lemma read_only_self A (m : Method A) h :
  read_only m -> self (snd (m h)) = self h.
Proof. intros Hm. destruct (Hm h) as (a & _ & Hself). exact Hself. Qed.

(** ** Delegation *)

(** C2: [_log_prob(value)] is [distribution_fn(value).log_prob(value)] and
    [_prob(value)] is [distribution_fn(value).prob(value)]: the value returned
    is the one the distribution returns, and the two calls shown are the only
    ones made. *)
Theorem log_prob_and_prob_pass_through value h :
  let fn := _distribution_fn (self h) in
  let built := fn (OneArg value) (world h) in
  let d := fst built in
  let lp := dist_log_prob d value (snd built) in
  let p := dist_prob d value (snd built) in
  _log_prob value h =
    (Ok (fst lp),
     {| self := self h;
        world := snd lp;
        history := history h ++ [EvApply (OneArg value); EvLogProb d value] |})
  /\
  _prob value h =
    (Ok (fst p),
     {| self := self h;
        world := snd p;
        history := history h ++ [EvApply (OneArg value); EvProb d value] |}).
Proof.
  cbv zeta.
  unfold _log_prob, _prob, distribution_fn, apply_fn, log_prob, prob, bind,
    attr, extern.
  cbn [self world history].
  destruct (_distribution_fn (self h) (OneArg value) (world h)) as [d w1].
  cbn [fst snd self world history].
  destruct (dist_log_prob d value w1) as [lp w2].
  destruct (dist_prob d value w1) as [p w3].
  cbn [fst snd]. rewrite <- !app_assoc. split; reflexivity.
Qed.

(** C6: on an instance the constructor returned, the shape hooks and
    [dtype] answer with what the base distribution built in the constructor
    answers: the static shapes and the dtype without touching anything, the
    shape tensors by the one call to the base distribution. *)
Theorem contract_delegates_to_base fn s0 ns va ans name w inst w' :
  __init__ fn s0 ns va ans name w = (Ok inst, w') ->
  let d0 := fst (base_call fn s0 name w) in
  forall h, self h = inst ->
    _batch_shape h = (Ok (dist_batch_shape d0), h) /\
    _event_shape h = (Ok (dist_event_shape d0), h) /\
    dtype h = (Ok (dist_dtype d0), h) /\
    _batch_shape_tensor h =
      (Ok (fst (dist_batch_shape_tensor d0 (world h))),
       {| self := inst;
          world := snd (dist_batch_shape_tensor d0 (world h));
          history := history h ++ [EvBatchShapeTensor d0] |}) /\
    _event_shape_tensor h =
      (Ok (fst (dist_event_shape_tensor d0 (world h))),
       {| self := inst;
          world := snd (dist_event_shape_tensor d0 (world h));
          history := history h ++ [EvEventShapeTensor d0] |}).
Proof.
  intros Hinit d0 h Hself.
  destruct (init_ok_inv _ _ _ _ _ _ _ Hinit)
    as (k & _ & _ & _ & _ & Hd0 & _ & Hdtype).
  fold d0 in Hd0, Hdtype.
  unfold _batch_shape, _event_shape, dtype, _batch_shape_tensor,
    _event_shape_tensor, batch_shape_tensor, event_shape_tensor,
    distribution0, bind, attr, ret, extern.
  rewrite Hself, Hd0, Hdtype.
  destruct (dist_batch_shape_tensor d0 (world h)) as [bt wb].
  destruct (dist_event_shape_tensor d0 (world h)) as [et we].
  cbn [fst snd]. repeat split; reflexivity.
Qed.

(** ** The step count *)

(** C7: an instance the constructor returns has at least one step, and no
    operation on an instance changes its step count: the bound holds after
    each operation and at the end of any run of operations. *)
Theorem num_steps_at_least_one fn s0 ns va ans name w inst w' :
  __init__ fn s0 ns va ans name w = (Ok inst, w') ->
  1 <= _num_steps inst /\
  (forall o h,
     self h = inst ->
     _num_steps (self (snd (exec o h))) = _num_steps inst) /\
  (forall ops h,
     self h = inst ->
     (exists vs, fst (exec_all ops h) = Ok vs) /\
     1 <= _num_steps (self (snd (exec_all ops h)))).
Proof.
  intros Hinit.
  destruct (init_ok_inv _ _ _ _ _ _ _ Hinit)
    as (k & _ & Hk & _ & _ & _ & Hsteps & _).
  assert (Hone : 1 <= _num_steps inst) by (rewrite Hsteps; exact Hk).
  split; [exact Hone|]. split.
  - intros o h Hself.
    rewrite (read_only_self h (exec_read_only o)), Hself. reflexivity.
  - intros ops h Hself.
    destruct (exec_all_read_only ops h) as (vs & Hvs & Hsame).
    split; [exists vs; exact Hvs|].
    rewrite Hsame, Hself. exact Hone.
Qed.

(** C10: [_sample_n], [_log_prob] and [_prob] return with every attribute
    of the instance as it was; and on an instance the constructor returned,
    after any run of operations, the four properties hand back what the
    constructor stored: its [distribution_fn] and [sample0] arguments, the
    step count it settled on, and the base distribution it built. *)
Theorem methods_leave_instance_unchanged :
  (forall n seed h, self (snd (_sample_n n seed h)) = self h) /\
  (forall value h, self (snd (_log_prob value h)) = self h) /\
  (forall value h, self (snd (_prob value h)) = self h) /\
  (forall fn s0 ns va ans name w inst w',
     __init__ fn s0 ns va ans name w = (Ok inst, w') ->
     forall ops h,
       self h = inst ->
       let h' := snd (exec_all ops h) in
       let d0 := fst (base_call fn s0 name w) in
       distribution_fn h' = (Ok fn, h') /\
       sample0 h' = (Ok s0, h') /\
       distribution0 h' = (Ok d0, h') /\
       exists k, step_count ns d0 = Some k /\ num_steps h' = (Ok k, h')).
Proof.
  split; [|split; [|split]].
  - intros n seed h. apply read_only_self, sample_n_read_only.
  - intros value h. apply read_only_self, log_prob_read_only.
  - intros value h. apply read_only_self, prob_read_only.
  - intros fn s0 ns va ans name w inst w' Hinit ops h Hself h' d0.
    destruct (init_ok_inv _ _ _ _ _ _ _ Hinit)
      as (k & Hcount & _ & Hfn & Hs0 & Hd0 & Hsteps & _).
    assert (Hself' : self h' = inst).
    { unfold h'. rewrite (read_only_self h (exec_all_read_only ops)).
      exact Hself. }
    unfold distribution_fn, sample0, distribution0, num_steps, attr.
    rewrite Hself', Hfn, Hs0, Hd0.
    repeat split. exists k. split; [exact Hcount|]. rewrite Hsteps.
    reflexivity.
Qed.

(** ** Sampling *)

(** The loop of [_sample_n], run [k] times from [samples]. *)
Lemma resample_loop seed k :
  forall samples h,
  exists out h' evs,
    for_range k
      (fun samples =>
         fn <- distribution_fn ;;
         d <- apply_fn fn (OneArg samples) ;;
         sample d None (Some seed))
      samples h = (Ok out, h') /\
    self h' = self h /\
    history h' = (history h ++ evs)%list /\
    resampled (_distribution_fn (self h)) seed k
      (samples, world h) (out, world h') /\
    applications evs = k /\
    sample_seeds evs = repeat (Some seed) k /\
    randint_calls evs = O.
Proof.
  induction k as [|k IH]; intros samples h.
  - exists samples, h, []. cbn. rewrite app_nil_r.
    repeat split; constructor.
  - cbn [for_range].
    unfold bind at 1. unfold bind at 1.
    unfold distribution_fn at 1. unfold attr at 1.
    unfold bind at 1. unfold apply_fn at 1. unfold extern at 1.
    destruct (_distribution_fn (self h) (OneArg samples) (world h))
      as [d w1] eqn:Hd.
    unfold sample at 1. unfold extern at 1. cbn [self world history].
    destruct (dist_sample d None (Some seed) w1) as [samples' w2] eqn:Hs.
    match goal with
    | |- context [for_range k _ samples' ?h2] =>
        destruct (IH samples' h2)
          as (out & h' & evs & Hrun & Hself & Hhist & Hchain & Happ &
              Hseeds & Hrand)
    end.
    cbn [self world history] in *.
    exists out, h', (EvApply (OneArg samples) ::
                     EvSample d None (Some seed) :: evs).
    repeat split.
    + exact Hrun.
    + exact Hself.
    + rewrite Hhist, <- !app_assoc. reflexivity.
    + econstructor; eassumption.
    + cbn. rewrite Happ. reflexivity.
    + cbn. rewrite Hseeds. reflexivity.
    + cbn. exact Hrand.
Qed.

(** [_sample_n] as a whole: the seed settled first, one draw from the base
    distribution, then the loop. *)
Lemma sample_n_run n seed h :
  let sw := resolve_seed seed (world h) in
  let d0 := _distribution0 (self h) in
  let drawn := dist_sample d0 (Some n) (Some (fst sw)) (snd sw) in
  exists out h' evs,
    _sample_n n seed h = (Ok out, h') /\
    self h' = self h /\
    history h' =
      (history h ++
       match seed with None => [EvRandint (2 ^ 32 - 1)] | Some _ => [] end ++
       EvSample d0 (Some n) (Some (fst sw)) :: evs)%list /\
    resampled (_distribution_fn (self h)) (fst sw)
      (range (_num_steps (self h))) (fst drawn, snd drawn) (out, world h') /\
    applications evs = range (_num_steps (self h)) /\
    sample_seeds evs =
      repeat (Some (fst sw)) (range (_num_steps (self h))) /\
    randint_calls evs = O.
Proof.
  cbv zeta. unfold _sample_n.
  unfold bind at 1.
  destruct seed as [s|]; cbn [resolve_seed fst snd].
  - unfold ret at 1. unfold bind at 1. unfold distribution0 at 1.
    unfold attr at 1. unfold bind at 1. unfold sample at 1.
    unfold extern at 1.
    destruct (dist_sample (_distribution0 (self h)) (Some n) (Some s)
                (world h)) as [x0 w2].
    unfold bind at 1. unfold attr at 1. cbn [self world history fst snd].
    match goal with
    | |- context [for_range _ _ x0 ?h2] =>
        destruct (resample_loop s (range (_num_steps (self h))) x0 h2)
          as (out & h' & evs & Hrun & Hself & Hhist & Hchain & Happ &
              Hseeds & Hrand)
    end.
    cbn [self world history] in *.
    exists out, h', evs. repeat split; auto.
    rewrite Hhist, <- app_assoc. reflexivity.
  - unfold bind at 1. unfold np_random_randint at 1. unfold extern at 1.
    destruct (randint (2 ^ 32 - 1) (world h)) as [r w1].
    unfold ret at 1. unfold bind at 1. unfold distribution0 at 1.
    unfold attr at 1. unfold bind at 1. unfold sample at 1.
    unfold extern at 1. cbn [self world history fst snd].
    destruct (dist_sample (_distribution0 (self h)) (Some n)
                (Some (gen_new_seed r "autoregressive")) w1) as [x0 w2].
    unfold bind at 1. unfold attr at 1. cbn [self world history fst snd].
    match goal with
    | |- context [for_range _ _ x0 ?h2] =>
        destruct (resample_loop (gen_new_seed r "autoregressive")
                    (range (_num_steps (self h))) x0 h2)
          as (out & h' & evs & Hrun & Hself & Hhist & Hchain & Happ &
              Hseeds & Hrand)
    end.
    cbn [self world history] in *.
    exists out, h', evs. repeat split; auto.
    rewrite Hhist, <- !app_assoc. reflexivity.
Qed.

Lemma applications_app evs1 evs2 :
  applications (evs1 ++ evs2) = (applications evs1 + applications evs2)%nat.
Proof.
  induction evs1 as [|[] evs1 IH]; cbn; auto.
Qed.

Lemma sample_seeds_app evs1 evs2 :
  sample_seeds (evs1 ++ evs2) = (sample_seeds evs1 ++ sample_seeds evs2)%list.
Proof.
  induction evs1 as [|[] evs1 IH]; cbn; auto. rewrite IH. reflexivity.
Qed.

Lemma randint_calls_app evs1 evs2 :
  randint_calls (evs1 ++ evs2) =
    (randint_calls evs1 + randint_calls evs2)%nat.
Proof.
  induction evs1 as [|[] evs1 IH]; cbn; auto.
Qed.

(** With draws under [seed] and a [distribution_fn] that do not depend on
    the world, the chain of replacements is a function of the samples it
    starts from.  Nothing is asked of draws without a seed or under another
    seed. *)
Lemma resampled_same_samples (fn : DistributionFn) seed :
  (forall d shape w1 w2,
     fst (dist_sample d shape (Some seed) w1) =
     fst (dist_sample d shape (Some seed) w2)) ->
  (forall x w1 w2, fst (fn (OneArg x) w1) = fst (fn (OneArg x) w2)) ->
  forall k a b,
    resampled fn seed k a b ->
    forall a' b',
      resampled fn seed k a' b' ->
      fst a = fst a' -> fst b = fst b'.
Proof.
  intros Hsample Hfn k a b Hchain.
  induction Hchain as [sw | k samples w d w1 samples' w2 out Hd Hs _ IH];
    intros a' b' Hchain' Hstart; inversion Hchain'; subst.
  - exact Hstart.
  - cbn [fst] in Hstart. subst.
    match goal with
    | Hd' : fn (OneArg ?x) ?w' = (?d', ?w1'),
      Hs' : dist_sample ?d' None (Some seed) ?w1' = (?x', ?w2') |- _ =>
        pose proof (Hfn x w w') as Hsame;
        rewrite Hd, Hd' in Hsame; cbn [fst] in Hsame; subst d';
        pose proof (Hsample d None w1 w1') as Hdraw;
        rewrite Hs, Hs' in Hdraw; cbn [fst] in Hdraw
    end.
    eapply IH; [eassumption | exact Hdraw].
Qed.

(** C1: on an instance the constructor returned, [_sample_n(n, seed)]
    returns, for every [n] and [seed].  It first draws [n] samples from the
    base distribution built in the constructor; then, as many times as the
    instance has steps, it replaces the samples by a draw from
    [distribution_fn] applied to them; what it returns is the outcome of the
    last replacement.  [distribution_fn] is called exactly that many times,
    all after the draw from the base distribution. *)
Theorem sample_n_draws_then_resamples fn s0 ns va ans name w inst w' :
  __init__ fn s0 ns va ans name w = (Ok inst, w') ->
  forall n seed h,
    self h = inst ->
    let sw := resolve_seed seed (world h) in
    let d0 := fst (base_call fn s0 name w) in
    let drawn := dist_sample d0 (Some n) (Some (fst sw)) (snd sw) in
    exists k out h' evs,
      Z.of_nat k = _num_steps inst /\
      _sample_n n seed h = (Ok out, h') /\
      resampled fn (fst sw) k (fst drawn, snd drawn) (out, world h') /\
      history h' =
        (history h ++
         match seed with None => [EvRandint (2 ^ 32 - 1)] | Some _ => [] end ++
         EvSample d0 (Some n) (Some (fst sw)) :: evs)%list /\
      applications evs = k.
Proof.
  intros Hinit n seed h Hself.
  destruct (init_ok_inv _ _ _ _ _ _ _ Hinit)
    as (steps & _ & Hsteps & Hfn & _ & Hd0 & Hnum & _).
  destruct (sample_n_run n seed h)
    as (out & h' & evs & Hrun & _ & Hhist & Hchain & Happ & _).
  cbv zeta. rewrite Hself, Hfn, Hd0 in *.
  exists (range (_num_steps inst)), out, h', evs.
  repeat split; auto.
  unfold range. rewrite Z2Nat.id; [reflexivity | lia].
Qed.

(** C9: every draw of one [_sample_n] is given the same seed: the caller's
    when there is one, and otherwise one made from a single draw of NumPy's
    generator, which is not touched when the caller gave a seed.  With a
    seed [s] given, distributions whose draws under [s] do not depend on the
    world, and a [distribution_fn] whose result on a tensor does not either,
    the samples returned depend on the instance, [n] and [s] alone; draws
    without a seed may be as random as they like. *)
Theorem sample_n_one_seed n seed h :
  let sd := fst (resolve_seed seed (world h)) in
  (forall s, seed = Some s -> sd = s) /\
  (seed = None ->
   sd = gen_new_seed (fst (randint (2 ^ 32 - 1) (world h))) "autoregressive")
  /\
  (exists evs,
     history (snd (_sample_n n seed h)) = (history h ++ evs)%list /\
     sample_seeds evs =
       repeat (Some sd) (Datatypes.S (range (_num_steps (self h)))) /\
     randint_calls evs = match seed with None => 1%nat | Some _ => O end) /\
  (forall s,
     (forall d shape w1 w2,
        fst (dist_sample d shape (Some s) w1) =
        fst (dist_sample d shape (Some s) w2)) ->
     (forall x w1 w2,
        fst (_distribution_fn (self h) (OneArg x) w1) =
        fst (_distribution_fn (self h) (OneArg x) w2)) ->
     forall h2,
       self h2 = self h ->
       fst (_sample_n n (Some s) h2) = fst (_sample_n n (Some s) h)).
Proof.
  cbv zeta. split; [|split; [|split]].
  - intros s ->. reflexivity.
  - intros ->. cbn [resolve_seed].
    destruct (randint (2 ^ 32 - 1) (world h)). reflexivity.
  - destruct (sample_n_run n seed h)
      as (out & h' & evs & Hrun & _ & Hhist & _ & _ & Hseeds & Hrand).
    rewrite Hrun. cbn [snd].
    eexists. split; [exact Hhist|].
    rewrite sample_seeds_app, randint_calls_app.
    destruct seed; cbn; rewrite Hseeds, Hrand; split; reflexivity.
  - intros s Hsample Hfn h2 Hself.
    destruct (sample_n_run n (Some s) h)
      as (out & h' & evs & Hrun & _ & _ & Hchain & _).
    destruct (sample_n_run n (Some s) h2)
      as (out2 & h2' & evs2 & Hrun2 & _ & _ & Hchain2 & _).
    rewrite Hrun, Hrun2. cbn [fst]. f_equal.
    cbn [resolve_seed fst snd] in Hchain, Hchain2.
    rewrite Hself in Hchain2.
    exact (resampled_same_samples Hsample Hfn Hchain2 Hchain
             (Hsample _ _ _ _)).
Qed.

(** ** More on the constructor *)

(** X1: [validate_args] and [allow_nan_stats] do not gate the two checks:
    whatever the flags, the constructor raises the same error from the same
    world, or returns instances with the same four attributes; the flags only
    travel on to the base class. *)
Theorem init_checks_ignore_flags fn s0 ns name w va ans va' ans' :
  let r := __init__ fn s0 ns va ans name w in
  let r' := __init__ fn s0 ns va' ans' name w in
  match fst r, fst r' with
  | Ok inst, Ok inst' =>
      _distribution_fn inst = _distribution_fn inst' /\
      _sample0 inst = _sample0 inst' /\
      _distribution0 inst = _distribution0 inst' /\
      _num_steps inst = _num_steps inst' /\
      da_validate_args (base inst) = va /\
      da_allow_nan_stats (base inst) = ans /\
      da_validate_args (base inst') = va' /\
      da_allow_nan_stats (base inst') = ans'
  | Raise e, Raise e' => e = e' /\ snd r = snd r'
  | _, _ => False
  end.
Proof.
  cbv zeta. rewrite !init_cases; cbv zeta.
  destruct (step_count ns (fst (base_call fn s0 name w))) as [k|];
    cbn [fst snd]; [|split; reflexivity].
  destruct (k <? 1); cbn [fst snd _distribution_fn _sample0 _distribution0
                           _num_steps base da_validate_args
                           da_allow_nan_stats];
    repeat split; reflexivity.
Qed.

(** X2: what the base class is given.  Its [parameters] are the arguments
    as the caller wrote them, so a defaulted step count shows there as [None]
    while the attribute holds the number of elements of the event shape; its
    [name] is the scoped name, and the reparameterization type and the graph
    parents are those of the base distribution. *)
Theorem init_base_class_arguments fn s0 ns va ans name w inst w' :
  __init__ fn s0 ns va ans name w = (Ok inst, w') ->
  da_parameters (base inst) =
    {| p_distribution_fn := fn;
       p_sample0 := s0;
       p_num_steps := ns;
       p_validate_args := va;
       p_allow_nan_stats := ans;
       p_name := name |} /\
  da_name (base inst) = fst (name_scope name w) /\
  da_reparameterization_type (base inst) =
    dist_reparameterization_type (_distribution0 inst) /\
  da_graph_parents (base inst) = dist_graph_parents (_distribution0 inst) /\
  (ns = None ->
   p_num_steps (da_parameters (base inst)) = None /\
   num_elements (dist_event_shape (_distribution0 inst)) =
     Some (_num_steps inst)).
Proof.
  rewrite init_cases; cbv zeta.
  destruct (step_count ns (fst (base_call fn s0 name w))) as [k|] eqn:Hk;
    [|discriminate].
  destruct (k <? 1); [discriminate|].
  intros H; injection H as <- <-. cbn.
  split; [reflexivity|]. split; [reflexivity|].
  split; [reflexivity|]. split; [reflexivity|].
  intros ->. split; [reflexivity | exact Hk].
Qed.

(** X3: the order of the outside calls.  The name scope is entered,
    [distribution_fn] is called once inside it, and the scope is left, whether
    the checks pass or not; [Distribution.__init__] runs after that, outside
    the scope, and only for an instance that is returned. *)
Theorem init_call_order fn s0 ns va ans name w :
  let entered := snd (name_scope name w) in
  let built := snd (fn (base_call_args s0) entered) in
  let left := name_scope_exit built in
  snd (__init__ fn s0 ns va ans name w) =
    match fst (__init__ fn s0 ns va ans name w) with
    | Ok inst => Distribution_init (base inst) left
    | Raise _ => left
    end.
Proof.
  cbv zeta. rewrite init_cases; cbv zeta. unfold base_call.
  destruct (step_count ns _) as [k|]; [|reflexivity].
  destruct (k <? 1); reflexivity.
Qed.

(** ** More on sampling *)

Lemma step_events_applications seed k evs :
  step_events seed k evs -> applications evs = k.
Proof.
  induction 1 as [|k samples d evs _ IH]; cbn; [reflexivity|].
  rewrite IH. reflexivity.
Qed.

Lemma step_events_randint seed k evs :
  step_events seed k evs -> randint_calls evs = O.
Proof.
  induction 1 as [|k samples d evs _ IH]; cbn; [reflexivity | exact IH].
Qed.

Lemma step_events_shapes seed k evs :
  step_events seed k evs -> sample_shapes evs = repeat None k.
Proof.
  induction 1 as [|k samples d evs _ IH]; cbn; [reflexivity|].
  rewrite IH. reflexivity.
Qed.

Lemma sample_shapes_app evs1 evs2 :
  sample_shapes (evs1 ++ evs2) =
    (sample_shapes evs1 ++ sample_shapes evs2)%list.
Proof.
  induction evs1 as [|[] evs1 IH]; cbn; auto. rewrite IH. reflexivity.
Qed.

(** The chain of replacements has one outcome. *)
Lemma resampled_functional (fn : DistributionFn) seed k a b :
  resampled fn seed k a b ->
  forall b', resampled fn seed k a b' -> b = b'.
Proof.
  induction 1 as [sw | k samples w d w1 samples' w2 out Hd Hs _ IH];
    intros b' Hchain; inversion Hchain; subst.
  - reflexivity.
  - match goal with
    | Hd' : fn (OneArg samples) w = _ |- _ =>
        rewrite Hd in Hd'; injection Hd' as <- <-
    end.
    match goal with
    | Hs' : dist_sample d None (Some seed) w1 = _ |- _ =>
        rewrite Hs in Hs'; injection Hs' as <- <-
    end.
    apply IH. assumption.
Qed.

(** A chain of [k1 + k2] replacements passes through the outcome of the
    first [k1]. *)
Lemma resampled_split (fn : DistributionFn) seed k1 k2 :
  forall a c,
    resampled fn seed (k1 + k2) a c ->
    exists b, resampled fn seed k1 a b /\ resampled fn seed k2 b c.
Proof.
  induction k1 as [|k1 IH]; intros a c Hchain.
  - exists a. split; [constructor | exact Hchain].
  - cbn [Nat.add] in Hchain. inversion Hchain; subst.
    match goal with
    | Hrest : resampled fn seed (k1 + k2) _ c |- _ =>
        destruct (IH _ _ Hrest) as (b & Hfirst & Hsecond)
    end.
    exists b. split; [econstructor; eassumption | exact Hsecond].
Qed.

(** The loop of [_sample_n] with the calls it makes. *)
Lemma resample_loop_events seed k :
  forall samples h,
  exists out h' evs,
    for_range k
      (fun samples =>
         fn <- distribution_fn ;;
         d <- apply_fn fn (OneArg samples) ;;
         sample d None (Some seed))
      samples h = (Ok out, h') /\
    self h' = self h /\
    history h' = (history h ++ evs)%list /\
    step_events seed k evs /\
    resampled (_distribution_fn (self h)) seed k
      (samples, world h) (out, world h').
Proof.
  induction k as [|k IH]; intros samples h.
  - exists samples, h, []. cbn. rewrite app_nil_r.
    repeat split; constructor.
  - cbn [for_range].
    unfold bind at 1. unfold bind at 1.
    unfold distribution_fn at 1. unfold attr at 1.
    unfold bind at 1. unfold apply_fn at 1. unfold extern at 1.
    destruct (_distribution_fn (self h) (OneArg samples) (world h))
      as [d w1] eqn:Hd.
    unfold sample at 1. unfold extern at 1. cbn [self world history].
    destruct (dist_sample d None (Some seed) w1) as [samples' w2] eqn:Hs.
    match goal with
    | |- context [for_range k _ samples' ?h2] =>
        destruct (IH samples' h2)
          as (out & h' & evs & Hrun & Hself & Hhist & Hevs & Hchain)
    end.
    cbn [self world history] in *.
    exists out, h', (EvApply (OneArg samples) ::
                     EvSample d None (Some seed) :: evs).
    split; [exact Hrun|]. split; [exact Hself|].
    split; [rewrite Hhist, <- !app_assoc; reflexivity|].
    split; [constructor; exact Hevs|].
    econstructor; eassumption.
Qed.

(** [_sample_n] with the calls it makes. *)
Lemma sample_n_events n seed h :
  let sw := resolve_seed seed (world h) in
  let d0 := _distribution0 (self h) in
  let drawn := dist_sample d0 (Some n) (Some (fst sw)) (snd sw) in
  exists out w' evs,
    _sample_n n seed h =
      (Ok out,
       {| self := self h;
          world := w';
          history :=
            history h ++
            match seed with
            | None => [EvRandint (2 ^ 32 - 1)]
            | Some _ => []
            end ++
            EvSample d0 (Some n) (Some (fst sw)) :: evs |}) /\
    step_events (fst sw) (range (_num_steps (self h))) evs /\
    resampled (_distribution_fn (self h)) (fst sw)
      (range (_num_steps (self h))) (fst drawn, snd drawn) (out, w').
Proof.
  cbv zeta. unfold _sample_n.
  unfold bind at 1.
  destruct seed as [s|]; cbn [resolve_seed fst snd].
  - unfold ret at 1. unfold bind at 1. unfold distribution0 at 1.
    unfold attr at 1. unfold bind at 1. unfold sample at 1.
    unfold extern at 1.
    destruct (dist_sample (_distribution0 (self h)) (Some n) (Some s)
                (world h)) as [x0 w2].
    unfold bind at 1. unfold attr at 1. cbn [self world history fst snd].
    match goal with
    | |- context [for_range _ _ x0 ?h2] =>
        destruct (resample_loop_events s (range (_num_steps (self h))) x0 h2)
          as (out & h' & evs & Hrun & Hself & Hhist & Hevs & Hchain)
    end.
    cbn [self world history] in *.
    exists out, (world h'), evs. rewrite Hrun.
    destruct h' as [self' world' history']. cbn [self world history] in *.
    subst self' history'. rewrite <- app_assoc.
    repeat split; auto.
  - unfold bind at 1. unfold np_random_randint at 1. unfold extern at 1.
    destruct (randint (2 ^ 32 - 1) (world h)) as [r w1].
    unfold ret at 1. unfold bind at 1. unfold distribution0 at 1.
    unfold attr at 1. unfold bind at 1. unfold sample at 1.
    unfold extern at 1. cbn [self world history fst snd].
    destruct (dist_sample (_distribution0 (self h)) (Some n)
                (Some (gen_new_seed r "autoregressive")) w1) as [x0 w2].
    unfold bind at 1. unfold attr at 1. cbn [self world history fst snd].
    match goal with
    | |- context [for_range _ _ x0 ?h2] =>
        destruct (resample_loop_events (gen_new_seed r "autoregressive")
                    (range (_num_steps (self h))) x0 h2)
          as (out & h' & evs & Hrun & Hself & Hhist & Hevs & Hchain)
    end.
    cbn [self world history] in *.
    exists out, (world h'), evs. rewrite Hrun.
    destruct h' as [self' world' history']. cbn [self world history] in *.
    subst self' history'. rewrite <- !app_assoc.
    repeat split; auto.
Qed.

(** X4: the density does not look at the step count, [sample0] or the base
    distribution: on two instances with the same [distribution_fn], in the
    same world, [_log_prob] and [_prob] return the same values and leave the
    same world. *)
Theorem density_uses_distribution_fn_only value h1 h2 :
  _distribution_fn (self h1) = _distribution_fn (self h2) ->
  world h1 = world h2 ->
  fst (_log_prob value h1) = fst (_log_prob value h2) /\
  world (snd (_log_prob value h1)) = world (snd (_log_prob value h2)) /\
  fst (_prob value h1) = fst (_prob value h2) /\
  world (snd (_prob value h1)) = world (snd (_prob value h2)).
Proof.
  intros Hfn Hworld.
  unfold _log_prob, _prob, distribution_fn, apply_fn, log_prob, prob, bind,
    attr, extern.
  cbn [self world history]. rewrite Hfn, Hworld.
  destruct (_distribution_fn (self h2) (OneArg value) (world h2)) as [d w1].
  cbn [self world history].
  destruct (dist_log_prob d value w1) as [lp w2].
  destruct (dist_prob d value w1) as [p w3].
  cbn [fst snd world]. repeat split; reflexivity.
Qed.

(** X5: sampling reads [distribution_fn], the base distribution and the
    step count, and nothing else of the instance: [sample0] and what was
    handed to the base class have no part in the samples. *)
Theorem sample_n_uses_three_attributes n seed h1 h2 :
  _distribution_fn (self h1) = _distribution_fn (self h2) ->
  _distribution0 (self h1) = _distribution0 (self h2) ->
  _num_steps (self h1) = _num_steps (self h2) ->
  world h1 = world h2 ->
  fst (_sample_n n seed h1) = fst (_sample_n n seed h2) /\
  world (snd (_sample_n n seed h1)) = world (snd (_sample_n n seed h2)).
Proof.
  intros Hfn Hd0 Hsteps Hworld.
  destruct (sample_n_events n seed h1)
    as (out1 & w1 & evs1 & Hrun1 & _ & Hchain1).
  destruct (sample_n_events n seed h2)
    as (out2 & w2 & evs2 & Hrun2 & _ & Hchain2).
  rewrite Hrun1, Hrun2. cbn [fst snd world].
  rewrite Hfn, Hd0, Hsteps, Hworld in Hchain1.
  pose proof (resampled_functional Hchain1 Hchain2) as Heq.
  injection Heq as -> ->. split; reflexivity.
Qed.

(** X6: steps add up.  Sampling with [k1 + k2] steps is sampling with [k1]
    steps followed by [k2] more replacements under the same seed, taken up in
    the world the first [k1] steps left. *)
Theorem sample_n_steps_add inst k1 k2 n seed h :
  let sd := fst (resolve_seed seed (world h)) in
  exists mid hmid out hout,
    _sample_n n seed (on_instance (with_steps inst (Z.of_nat k1)) h) =
      (Ok mid, hmid) /\
    _sample_n n seed (on_instance (with_steps inst (Z.of_nat (k1 + k2))) h) =
      (Ok out, hout) /\
    resampled (_distribution_fn inst) sd k2
      (mid, world hmid) (out, world hout).
Proof.
  cbv zeta.
  destruct (sample_n_events n seed
              (on_instance (with_steps inst (Z.of_nat k1)) h))
    as (mid & wm & evs1 & Hrun1 & _ & Hchain1).
  destruct (sample_n_events n seed
              (on_instance (with_steps inst (Z.of_nat (k1 + k2))) h))
    as (out & wo & evs2 & Hrun2 & _ & Hchain2).
  cbn [on_instance with_steps self world history _distribution_fn
       _distribution0 _num_steps] in *.
  unfold range in Hchain1, Hchain2. rewrite Nat2Z.id in Hchain1, Hchain2.
  destruct (resampled_split _ _ Hchain2) as (b & Hfirst & Hsecond).
  rewrite <- (resampled_functional Hchain1 Hfirst) in Hsecond.
  do 4 eexists. split; [exact Hrun1|]. split; [exact Hrun2|].
  exact Hsecond.
Qed.

(** X7: [n] shapes the draw from the base distribution only: of the
    [sample] calls of one [_sample_n], the first is given [n] as its shape
    and every later one is made without a shape. *)
Theorem sample_n_shape_for_base_draw_only n seed h :
  exists evs,
    history (snd (_sample_n n seed h)) = (history h ++ evs)%list /\
    sample_shapes evs =
      Some n :: repeat None (range (_num_steps (self h))).
Proof.
  destruct (sample_n_events n seed h)
    as (out & w' & evs & Hrun & Hevs & _).
  rewrite Hrun. cbn [snd history].
  eexists. split; [reflexivity|].
  rewrite sample_shapes_app. cbn [sample_shapes].
  rewrite (step_events_shapes Hevs).
  destruct seed; reflexivity.
Qed.

(** X9: the loop on a step count below one.  On an instance whose
    [_num_steps] has been set below one (the constructor returns none such),
    [_sample_n] hands back the draw from the base distribution as it is and
    never calls [distribution_fn]. *)
Theorem sample_n_without_steps n seed h :
  _num_steps (self h) <= 0 ->
  let sw := resolve_seed seed (world h) in
  let d0 := _distribution0 (self h) in
  let drawn := dist_sample d0 (Some n) (Some (fst sw)) (snd sw) in
  _sample_n n seed h =
    (Ok (fst drawn),
     {| self := self h;
        world := snd drawn;
        history :=
          history h ++
          match seed with
          | None => [EvRandint (2 ^ 32 - 1)]
          | Some _ => []
          end ++
          [EvSample d0 (Some n) (Some (fst sw))] |}).
Proof.
  intros Hsteps. cbv zeta.
  destruct (sample_n_events n seed h)
    as (out & w' & evs & Hrun & Hevs & Hchain).
  assert (Hzero : range (_num_steps (self h)) = O)
    by (unfold range; lia).
  rewrite Hzero in Hevs, Hchain.
  inversion Hevs; subst. inversion Hchain; subst.
  exact Hrun.
Qed.

(** ** Client programs *)

Lemma fmap_run S A B (f : A -> B) (m : M S A) s a s' :
  m s = (Ok a, s') -> fmap f m s = (Ok (f a), s').
Proof. intros Hm. unfold fmap, bind, ret. rewrite Hm. reflexivity. Qed.

(** One operation with the calls it makes. *)
Lemma exec_calls o h :
  exists v h' evs,
    exec o h = (Ok v, h') /\
    self h' = self h /\
    history h' = (history h ++ evs)%list /\
    applications evs = fn_calls (self h) o /\
    randint_calls evs = generator_draws o.
Proof.
  destruct o as [| | | | | | | | |n seed|value|value]; cbn [exec].
  1-5: (eexists; exists h, []; rewrite app_nil_r;
        repeat split; reflexivity).
  - eexists; exists h, []; rewrite app_nil_r. repeat split; reflexivity.
  - unfold _batch_shape_tensor, batch_shape_tensor, distribution0, fmap,
      bind, attr, extern, ret. cbn [self world history].
    destruct (dist_batch_shape_tensor (_distribution0 (self h)) (world h))
      as [t w1].
    do 3 eexists. repeat split; reflexivity.
  - eexists; exists h, []; rewrite app_nil_r. repeat split; reflexivity.
  - unfold _event_shape_tensor, event_shape_tensor, distribution0, fmap,
      bind, attr, extern, ret. cbn [self world history].
    destruct (dist_event_shape_tensor (_distribution0 (self h)) (world h))
      as [t w1].
    do 3 eexists. repeat split; reflexivity.
  - destruct (sample_n_events n seed h)
      as (out & w' & evs & Hrun & Hevs & _).
    rewrite (fmap_run VTensor _ _ Hrun).
    do 3 eexists. split; [reflexivity|]. cbn [self history].
    split; [reflexivity|]. split; [reflexivity|].
    rewrite applications_app, randint_calls_app.
    cbn [fn_calls generator_draws].
    destruct seed; cbn;
      rewrite (step_events_applications Hevs), (step_events_randint Hevs);
      split; reflexivity.
  - unfold _log_prob, distribution_fn, apply_fn, log_prob, fmap, bind, attr,
      extern, ret. cbn [self world history].
    destruct (_distribution_fn (self h) (OneArg value) (world h)) as [d w1].
    cbn [self world history].
    destruct (dist_log_prob d value w1) as [lp w2].
    do 3 eexists. split; [reflexivity|]. cbn [self history].
    split; [reflexivity|].
    split; [rewrite <- app_assoc; reflexivity|].
    split; reflexivity.
  - unfold _prob, distribution_fn, apply_fn, prob, fmap, bind, attr,
      extern, ret. cbn [self world history].
    destruct (_distribution_fn (self h) (OneArg value) (world h)) as [d w1].
    cbn [self world history].
    destruct (dist_prob d value w1) as [p w2].
    do 3 eexists. split; [reflexivity|]. cbn [self history].
    split; [reflexivity|].
    split; [rewrite <- app_assoc; reflexivity|].
    split; reflexivity.
Qed.

(** X8: nothing is cached.  A client program returns one value per
    operation, and over the whole run [distribution_fn] is applied once for
    every [_log_prob] and [_prob] and as many times as the instance has steps
    for every [_sample_n]; NumPy's generator is drawn from once for every
    [_sample_n] without a seed.  The properties and the shape hooks cost
    neither. *)
Theorem client_program_calls ops :
  forall h,
  exists vs h' evs,
    exec_all ops h = (Ok vs, h') /\
    List.length vs = List.length ops /\
    self h' = self h /\
    history h' = (history h ++ evs)%list /\
    applications evs = list_sum (map (fn_calls (self h)) ops) /\
    randint_calls evs = list_sum (map generator_draws ops).
Proof.
  induction ops as [|o ops IH]; intros h.
  - exists [], h, []. cbn. rewrite app_nil_r. repeat split; reflexivity.
  - destruct (exec_calls o h)
      as (v & h1 & evs1 & Hrun1 & Hself1 & Hhist1 & Happ1 & Hrand1).
    destruct (IH h1)
      as (vs & h' & evs & Hrun & Hlen & Hself & Hhist & Happ & Hrand).
    exists (v :: vs), h', (evs1 ++ evs)%list.
    cbn [exec_all]. unfold bind at 1. rewrite Hrun1.
    unfold bind at 1. rewrite Hrun. unfold ret.
    split; [reflexivity|].
    split; [cbn; rewrite Hlen; reflexivity|].
    split; [congruence|].
    split; [rewrite Hhist, Hhist1, app_assoc; reflexivity|].
    rewrite applications_app, randint_calls_app, Happ, Hrand, Happ1, Hrand1.
    rewrite Hself1. cbn [map list_sum fold_right]. split; reflexivity.
Qed.

End Properties.

(** ** The class run on the small framework *)

Example toy_construction :
  __init__ Toy.shift (Some 5) None false true "Autoregressive" 0 =
    (Ok Toy.ar, 4).
Proof. reflexivity. Qed.

(** Base draw [6 + 1 + 10 = 17], then [18 + 10 = 28], then [29 + 10 = 39]. *)
Example toy_sample_n :
  _sample_n 1 (Some 10) (Toy.heap 3) =
    (Ok 39,
     {| self := Toy.ar;
        world := 8;
        history :=
          [EvSample {| Toy.loc := 6; Toy.event := [Some 2; Some 1] |}
             (Some 1) (Some 10);
           EvApply (OneArg 17);
           EvSample {| Toy.loc := 18; Toy.event := [Some 2; Some 1] |}
             None (Some 10);
           EvApply (OneArg 28);
           EvSample {| Toy.loc := 29; Toy.event := [Some 2; Some 1] |}
             None (Some 10)] |}).
Proof. reflexivity. Qed.

(** An event of shape [[0]] has no element: the default step count is
    turned down. *)
Example toy_empty_event :
  __init__ (Toy.shift_over [Some 0]) None None false true "Autoregressive" 0
  = (Raise (ValueError "num_steps (0) must be at least 1."), 3).
Proof. reflexivity. Qed.

Example toy_negative_steps :
  fst (__init__ Toy.shift None (Some (-2)) false true "Autoregressive" 0) =
    Raise (ValueError "num_steps (-2) must be at least 1.").
Proof. reflexivity. Qed.

(** ** The theorems at work on the small framework *)

Lemma sample_n_draws_then_resamples_witness :
  __init__ Toy.shift (Some 5) None false true "Autoregressive" 0 =
    (Ok Toy.ar, 4) /\
  exists k out h' evs,
    Z.of_nat k = 2 /\
    _sample_n 1 (Some 10) (Toy.heap 3) = (Ok out, h') /\
    resampled Toy.shift 10 k (17, 4) (out, world h') /\
    history h' =
      EvSample {| Toy.loc := 6; Toy.event := [Some 2; Some 1] |}
        (Some 1) (Some 10) :: evs /\
    applications evs = k.
Proof.
  split; [reflexivity|].
  exact (sample_n_draws_then_resamples
           Toy.shift (Some 5) None false true "Autoregressive" 0
           (inst := Toy.ar) (w' := 4) eq_refl
           1 (Some 10) (Toy.heap 3) eq_refl).
Defined.

Lemma init_base_distribution_witness :
  (exists inst,
     fst (__init__ Toy.shift (Some 5) None false true "Autoregressive" 0) =
       Ok inst /\
     _distribution0 inst =
       {| Toy.loc := 6; Toy.event := [Some 2; Some 1] |}) /\
  (exists inst,
     fst (__init__ Toy.shift None None false true "Autoregressive" 0) =
       Ok inst /\
     _distribution0 inst =
       {| Toy.loc := 0; Toy.event := [Some 2; Some 1] |}).
Proof.
  destruct (init_base_distribution
              Toy.shift None false true "Autoregressive" 0)
    as (Hgiven & Hnone).
  split.
  - destruct (Hgiven 5) as (_ & Hbuilt).
    eexists. split; [reflexivity | exact (proj1 Hbuilt)].
  - destruct Hnone as (_ & Hbuilt).
    eexists. split; [reflexivity | exact (proj1 Hbuilt)].
Defined.

Lemma contract_delegates_to_base_witness :
  __init__ Toy.shift (Some 5) None false true "Autoregressive" 0 =
    (Ok Toy.ar, 4) /\
  _batch_shape (Toy.heap 7) = (Ok [], Toy.heap 7) /\
  _event_shape (Toy.heap 7) = (Ok [Some 2; Some 1], Toy.heap 7) /\
  dtype (Toy.heap 7) = (Ok "float32", Toy.heap 7).
Proof.
  split; [reflexivity|].
  destruct (contract_delegates_to_base
              Toy.shift (Some 5) None false true "Autoregressive" 0
              (inst := Toy.ar) (w' := 4) eq_refl (Toy.heap 7) eq_refl)
    as (Hbatch & Hevent & Hdtype & _).
  exact (conj Hbatch (conj Hevent Hdtype)).
Defined.

Lemma num_steps_at_least_one_witness :
  __init__ Toy.shift (Some 5) None false true "Autoregressive" 0 =
    (Ok Toy.ar, 4) /\
  1 <= _num_steps Toy.ar /\
  1 <= _num_steps
         (self (snd (exec_all Toy.sample_then_prob (Toy.heap 4)))).
Proof.
  split; [reflexivity|].
  destruct (num_steps_at_least_one
              Toy.shift (Some 5) None false true "Autoregressive" 0
              (inst := Toy.ar) (w' := 4) eq_refl)
    as (Hone & _ & Hall).
  split; [exact Hone|].
  exact (proj2 (Hall Toy.sample_then_prob (Toy.heap 4) eq_refl)).
Defined.

Lemma init_default_steps_witness :
  num_elements
    (dist_event_shape (fst (base_call Toy.shift (Some 5) "Autoregressive" 0)))
    = Some 2 /\
  exists inst,
    fst (__init__ Toy.shift (Some 5) None false true "Autoregressive" 0) =
      Ok inst /\
    _num_steps inst = 2.
Proof.
  split; [reflexivity|].
  apply (init_default_steps
           Toy.shift (Some 5) false true "Autoregressive" 0 (k := 2)
           eq_refl).
  lia.
Defined.

Lemma sample_n_one_seed_witness :
  fst (dist_sample (Toy.Build_dist 6 []) None None 0) <>
    fst (dist_sample (Toy.Build_dist 6 []) None None 1) /\
  self (Toy.heap 8) = self (Toy.heap 3) /\
  fst (_sample_n 1 (Some 10) (Toy.heap 8)) =
  fst (_sample_n 1 (Some 10) (Toy.heap 3)).
Proof.
  split; [discriminate|].
  split; [reflexivity|].
  destruct (sample_n_one_seed (F := Toy.framework) 1 (Some 10) (Toy.heap 3))
    as (_ & _ & _ & Hsame).
  apply (Hsame 10).
  - intros d shape w1 w2. reflexivity.
  - intros x w1 w2. reflexivity.
  - reflexivity.
Defined.

Lemma methods_leave_instance_unchanged_witness :
  __init__ Toy.shift (Some 5) None false true "Autoregressive" 0 =
    (Ok Toy.ar, 4) /\
  let h' := snd (exec_all Toy.sample_then_log_prob (Toy.heap 4)) in
  distribution_fn h' = (Ok Toy.shift, h') /\
  sample0 h' = (Ok (Some 5), h') /\
  num_steps h' = (Ok 2, h').
Proof.
  split; [reflexivity|].
  destruct methods_leave_instance_unchanged as (_ & _ & _ & Hprops).
  destruct (Hprops Toy.shift (Some 5) None false true "Autoregressive" 0
              Toy.ar 4 eq_refl Toy.sample_then_log_prob (Toy.heap 4) eq_refl)
    as (Hfn & Hs0 & _ & k & Hk & Hsteps).
  injection Hk as <-.
  exact (conj Hfn (conj Hs0 Hsteps)).
Defined.

Lemma init_explicit_steps_witness :
  0 < 1 /\
  fst (__init__ Toy.shift None (Some 0) false true "Autoregressive" 0) =
    Raise (ValueError "num_steps (0) must be at least 1.").
Proof.
  split; [lia|].
  apply (init_explicit_steps Toy.shift None 0 false true "Autoregressive" 0).
  lia.
Defined.

Lemma init_raises_exactly_two_witness :
  fst (__init__ (Toy.shift_over [Some 3; None]) None None false true
         "Autoregressive" 0) =
    Raise
      (ValueError
         "distribution_fn must generate a distribution with fully known `event_shape`.").
Proof.
  apply (init_raises_exactly_two
           (Toy.shift_over [Some 3; None]) None None false true
           "Autoregressive" 0).
  split; reflexivity.
Defined.

Lemma init_base_class_arguments_witness :
  __init__ Toy.shift (Some 5) None false true "Autoregressive" 0 =
    (Ok Toy.ar, 4) /\
  da_name (base Toy.ar) = "Autoregressive/" /\
  (@None Z = None ->
   p_num_steps (da_parameters (base Toy.ar)) = None /\
   Toy.count (Toy.event (_distribution0 Toy.ar)) = Some (_num_steps Toy.ar)).
Proof.
  split; [reflexivity|].
  destruct (init_base_class_arguments
              Toy.shift (Some 5) None false true "Autoregressive" 0
              (inst := Toy.ar) (w' := 4) eq_refl)
    as (_ & Hname & _ & _ & Hdefault).
  exact (conj Hname Hdefault).
Defined.

Lemma density_uses_distribution_fn_only_witness :
  _distribution_fn (self (Toy.heap 3)) =
    _distribution_fn (self (on_instance Toy.ar_long (Toy.heap 3))) /\
  fst (_log_prob 4 (Toy.heap 3)) =
    fst (_log_prob 4 (on_instance Toy.ar_long (Toy.heap 3))) /\
  fst (_prob 4 (Toy.heap 3)) =
    fst (_prob 4 (on_instance Toy.ar_long (Toy.heap 3))).
Proof.
  split; [reflexivity|].
  destruct (density_uses_distribution_fn_only (F := Toy.framework) 4
              (Toy.heap 3)
              (on_instance Toy.ar_long (Toy.heap 3)) eq_refl eq_refl)
    as (Hlog & _ & Hprob & _).
  exact (conj Hlog Hprob).
Defined.

Lemma sample_n_uses_three_attributes_witness :
  _sample0 Toy.ar_relabelled <> _sample0 Toy.ar /\
  fst (_sample_n 1 None (on_instance Toy.ar_relabelled (Toy.heap 3))) =
    fst (_sample_n 1 None (Toy.heap 3)).
Proof.
  split; [discriminate|].
  exact (proj1 (sample_n_uses_three_attributes (F := Toy.framework) 1 None
                  (on_instance Toy.ar_relabelled (Toy.heap 3)) (Toy.heap 3)
                  eq_refl eq_refl eq_refl eq_refl)).
Defined.

Lemma sample_n_without_steps_witness :
  _num_steps (self (on_instance Toy.ar_idle (Toy.heap 3))) <= 0 /\
  fst (_sample_n 1 (Some 10) (on_instance Toy.ar_idle (Toy.heap 3))) = Ok 17.
Proof.
  assert (Hidle : _num_steps (self (on_instance Toy.ar_idle (Toy.heap 3)))
                  <= 0) by (cbn; lia).
  split; [exact Hidle|].
  rewrite (sample_n_without_steps (F := Toy.framework) 1 (Some 10)
             (on_instance Toy.ar_idle (Toy.heap 3)) Hidle).
  reflexivity.
Defined.
